(** * front/models.py of bikeanjo: vocabularies, users, help requests,
      tracks and points.

    Shallow embedding of the model layer.  Python integers are [Z]
    (unbounded, [&] is [Z.land] on the two's complement reading, as in
    Python), lazily translated labels are their message ids, a generator is
    the list of the values it yields, a dict with string keys is a
    [gmap string _], an instant is its number of microseconds. *)

From Stdlib Require Import ZArith String List Sorted Lia.
From Stdlib Require Import Floats.SpecFloat.
From stdpp Require Import gmap strings list fin_maps.
Import ListNotations.

Local Open Scope string_scope.
Local Open Scope Z_scope.

(** ** Enumerated vocabularies *)

Definition CYCLIST_ROLES : list (string * string) :=
  [ ("volunteer", "Volunteer");
    ("requester", "Requester") ].

Definition VOLUNTEER_EXPERIENCE : list (string * string) :=
  [ ("less than 1 year", "Less than 1 year");
    ("from 1 to 2 years", "From 1 to 2 years");
    ("from 2 to 4 years", "From 2 to 4 years");
    ("more than 4 years", "More than 4 years") ].

Definition REQUESTER_EXPERIENCE : list (string * string) :=
  [ ("do not know pedaling yet", "I do not know pedaling yet");
    ("no experience in traffic",
     "I know cycling, but have no experience in traffic");
    ("already ride a long time", "Already ride a long time but not daily");
    ("use bike almost every day", "I use bike almost every day") ].

Definition EXPERIENCE : list (string * string) :=
  VOLUNTEER_EXPERIENCE ++ REQUESTER_EXPERIENCE.

Definition BIKE_USE : list (string * string) :=
  [ ("everyday", "Everyday");
    ("just few days a week/month", "Just few days a week/month");
    ("once a week", "Once a week");
    ("no, i use for leisure", "No, I use for leisure") ].

Definition HELP_OFFER : list (Z * string) :=
  [ (1, "Teach someone to ride a bike");
    (2, "Follow beginners on cycling");
    (4, "Advice about safe routes");
    (8, "Participating in the events of Bike Anjos") ].

Definition HELP_REQUEST : list (Z * string) :=
  [ (16, "Learn to ride a bike");
    (32, "Pratice cycling");
    (64, "Monitoring on traffic");
    (128, "Route recomendation") ].

Definition HELP : list (Z * string) := HELP_OFFER ++ HELP_REQUEST.

(** Truth value of a Python integer used as a condition. *)
Definition truthy (n : Z) : bool := negb (n =? 0).

(** The body shared, word for word, by the two [help_labels] generators:
<<
    for code, label in HELP:
        if self.help_with >= code:
            break
        if self.help_with & code:
            yield label
>>
    [break] ends the loop, so nothing more is yielded. *)
Fixpoint help_labels_loop (help_with : Z) (vocabulary : list (Z * string))
  : list string :=
  match vocabulary with
  | [] => []
  | (code, label) :: rest =>
      if help_with >=? code then []
      else if truthy (Z.land help_with code)
           then label :: help_labels_loop help_with rest
           else help_labels_loop help_with rest
  end.

(** What the decoding is described to do: every code of the vocabulary
    whose bit is set in the mask gives its label, in vocabulary order. *)
Definition set_bit_labels (mask : Z) (vocabulary : list (Z * string))
  : list string :=
  map snd (List.filter (fun cl => truthy (Z.land mask (fst cl))) vocabulary).

(** A mask whose set bits all lie at vocabulary codes. *)
Definition vocabulary_mask (mask : Z) : Prop :=
  0 <= mask /\ Z.land mask (Z.lnot 255) = 0.

(** ** User *)

Module User.

Record t := mk {
  country : string;
  city : string;
  gender : string;
  ride_experience : string;
  bike_use : string;
  help_with : Z;
  initiatives : string;
  role : string
}.

Definition help_labels (self : t) : list string :=
  help_labels_loop (help_with self) HELP.

End User.

(** ** HelpRequest and its status query set *)

(** [dict(items)]: later items overwrite earlier ones. *)
Definition dict {V} (items : list (Z * V)) : gmap Z V :=
  fold_left (fun d kv => <[kv.1 := kv.2]> d) items ∅.

Module HelpRequest.

(** The declared status choices, [STATUS.items()]. *)
Definition STATUS : list (string * string) :=
  [ ("new", "New");
    ("assigned", "Assigned");
    ("canceled", "Canceled");
    ("finished", "Finished") ].

Definition HELP_OPTIONS : gmap Z string := dict HELP_REQUEST.

(** References are primary keys; instants are microseconds.  The two
    audit stamps of [BaseModel] are unset until the first write. *)
Record t := mk {
  created_date : option Z;
  modified_date : option Z;
  requester : option Z;
  volunteer : option Z;
  help_with : Z;
  status : string;
  last_access : Z
}.

(** [HelpRequest(requester=...)]: every other field takes its declared
    default; [last_access] reads the clock ([default=timezone.now]). *)
Definition init (requester : option Z) (now : Z) : t :=
  {| created_date := None;
     modified_date := None;
     requester := requester;
     volunteer := None;
     help_with := 0;
     status := "new";
     last_access := now |}.

(** The stamps a write puts on the record: [created_date] is
    [auto_now_add] (first write only), [modified_date] is [auto_now]
    (every write). *)
Definition pre_save (add : bool) (now : Z) (self : t) : t :=
  {| created_date := if add then Some now else created_date self;
     modified_date := Some now;
     requester := requester self;
     volunteer := volunteer self;
     help_with := help_with self;
     status := status self;
     last_access := last_access self |}.

(** [self.last_access < self.modified_date]; comparing an instant with
    [None] raises [TypeError], here [None]. *)
Definition has_updates (self : t) : option bool :=
  match modified_date self with
  | Some modified => Some (last_access self <? modified)
  | None => None
  end.

(** [HelpRequest.HELP_OPTIONS.get(self.help_with, '')] *)
Definition get_help_label (self : t) : string :=
  default "" (HELP_OPTIONS !! help_with self).

Definition help_labels (self : t) : list string :=
  help_labels_loop (help_with self) HELP.

End HelpRequest.

Module HelpStatusQuerySet.

(** A query set is the sequence of records it selects; [filter] keeps
    the order and the records satisfying the lookup. *)
Definition t := list HelpRequest.t.

Definition status__in (values : list string) (r : HelpRequest.t) : bool :=
  bool_decide (HelpRequest.status r ∈ values).

Definition status_eq (value : string) (r : HelpRequest.t) : bool :=
  bool_decide (HelpRequest.status r = value).

Definition active (self : t) : t :=
  List.filter (status__in ["new"; "assigned"]) self.

Definition new (self : t) : t := List.filter (status_eq "new") self.

Definition assigned (self : t) : t :=
  List.filter (status_eq "assigned") self.

Definition closed (self : t) : t :=
  List.filter (status__in ["canceled"; "attended"]) self.

Definition canceled (self : t) : t :=
  List.filter (status_eq "canceled") self.

Definition attended (self : t) : t :=
  List.filter (status_eq "attended") self.

End HelpStatusQuerySet.

(** ** Track and Point *)

(** The Python values the two [json] methods build.  A float is its
    binary64 datum. *)
#[warnings="-register-all"]
Inductive value :=
| VStr (s : string)
| VInt (n : Z)
| VFloat (x : spec_float)
| VTuple (items : list value)
| VList (items : list value)
| VDict (d : gmap string value).

(** [d[outer][key] = v]: the inner dict is the one stored in [d], so the
    assignment is seen through [d]. *)
Definition setitem2 (outer key : string) (v : value)
    (d : gmap string value) : gmap string value :=
  alter (fun inner => match inner with
                      | VDict p => VDict (<[key := v]> p)
                      | other => other
                      end) outer d.

(** Truth value of [self.id]: unset ([None]) and [0] are false. *)
Definition id_truthy (id : option Z) : bool :=
  match id with
  | Some n => truthy n
  | None => false
  end.

(** A 2D coordinate as the geometry yields it: the tuple [(x, y)]. *)
Definition coord_value (p : spec_float * spec_float) : value :=
  VTuple [VFloat p.1; VFloat p.2].

Module Track.

Record t := mk {
  id : option Z;
  user : Z;
  start : string;
  end_ : string;
  track : list (spec_float * spec_float)
}.

Definition json (self : t) : gmap string value :=
  let d : gmap string value :=
    <["properties" :=
        VDict (<["end" := VStr (end_ self)]>
                 (<["start" := VStr (start self)]> ∅))]>
      (<["coordinates" := VList (map coord_value (track self))]>
        (<["type" := VStr "LineString"]> ∅)) in
  match id self with
  | Some n => if truthy n then setitem2 "properties" "id" (VInt n) d else d
  | None => d
  end.

End Track.

Module Point.

Record t := mk {
  id : option Z;
  user : Z;
  address : string;
  coords : spec_float * spec_float
}.

Definition json (self : t) : gmap string value :=
  let d : gmap string value :=
    <["properties" := VDict (<["address" := VStr (address self)]> ∅)]>
      (<["coordinates" := coord_value (coords self)]>
        (<["type" := VStr "LineString"]> ∅)) in
  match id self with
  | Some n => if truthy n then setitem2 "properties" "id" (VInt n) d else d
  | None => d
  end.

End Point.

(** The inner dict reached through the key [properties]. *)
Definition properties (d : gmap string value) : gmap string value :=
  match d !! "properties" with
  | Some (VDict p) => p
  | _ => ∅
  end.

(** ** Further parts of the module *)

(** [HelpReply.INTENTION] *)
Definition INTENTION : list (string * string) :=
  [ ("answer", "Answer");
    ("finish", "Finish");
    ("cancel", "Cancel") ].



(** The id as [json()] lets it through: set and not 0. *)
Definition serialized_id (id : option Z) : option Z :=
  match id with
  | Some n => if truthy n then Some n else None
  | None => None
  end.

(** * Properties *)

(** ** The topic vocabulary *)

(** C8: [HELP] is the four offer topics (codes 1, 2, 4, 8) followed by the
    four request topics (codes 16, 32, 64, 128), in declaration order; the
    eight codes are the powers of two 2^0 .. 2^7, strictly ascending and
    pairwise distinct. *)
Theorem HELP_vocabulary :
  HELP = [ (1, "Teach someone to ride a bike");
           (2, "Follow beginners on cycling");
           (4, "Advice about safe routes");
           (8, "Participating in the events of Bike Anjos");
           (16, "Learn to ride a bike");
           (32, "Pratice cycling");
           (64, "Monitoring on traffic");
           (128, "Route recomendation") ]
  /\ HELP = (HELP_OFFER ++ HELP_REQUEST)%list
  /\ map fst HELP_OFFER = [1; 2; 4; 8]
  /\ map fst HELP_REQUEST = [16; 32; 64; 128]
  /\ map fst HELP = map (Z.pow 2) [0; 1; 2; 3; 4; 5; 6; 7]
  /\ StronglySorted Z.lt (map fst HELP)
  /\ NoDup (map fst HELP).
Proof.
  repeat split; try reflexivity.
  - cbn. repeat constructor; lia.
  - cbn. repeat (apply NoDup_cons; split;
                 [rewrite ?elem_of_cons, elem_of_nil; lia |]).
    apply NoDup_nil_2.
Qed.

(** ** Decoding a mask *)

(** A positive mask stops the loop at the first code it is not below. *)
Lemma help_labels_loop_break help_with code label rest :
  code <= help_with ->
  help_labels_loop help_with ((code, label) :: rest) = [].
Proof.
  intros Hle. cbn [help_labels_loop].
  destruct (Z.geb_spec help_with code) as [_ | Hlt]; [reflexivity | lia].
Qed.

(** No label is ever yielded for a mask that is not negative. *)
Lemma help_labels_loop_nonneg help_with :
  0 <= help_with -> help_labels_loop help_with HELP = [].
Proof.
  intros Hnn. destruct (Z.eq_dec help_with 0) as [-> | Hne].
  - reflexivity.
  - apply help_labels_loop_break. lia.
Qed.

(** A mask below every code is tested against each of them. *)
Lemma help_labels_loop_below help_with vocabulary :
  Forall (fun cl => help_with < fst cl) vocabulary ->
  help_labels_loop help_with vocabulary = set_bit_labels help_with vocabulary.
Proof.
  induction 1 as [| [code label] rest Hlt _ IH]; [reflexivity |].
  cbn [help_labels_loop]. cbn in Hlt.
  destruct (Z.geb_spec help_with code) as [Hge | _]; [lia |].
  unfold set_bit_labels in *. cbn [List.filter fst].
  destruct (truthy (Z.land help_with code)); cbn [map snd]; now rewrite IH.
Qed.

(** C1, at the mask of the scenario: [help_with = 1 | 4] has set bits only
    at vocabulary codes and its set bits name the labels "Teach someone to
    ride a bike" and "Advice about safe routes", but [help_labels] leaves
    the loop at the first code (5 >= 1) and yields nothing. *)
Theorem help_labels_teach_advice :
  let user := User.mk "" "" "" "" "" (Z.lor 1 4) "" "" in
  vocabulary_mask (User.help_with user)
  /\ set_bit_labels (User.help_with user) HELP
     = ["Teach someone to ride a bike"; "Advice about safe routes"]
  /\ User.help_labels user = [].
Proof.
  intros user. split; [split; [vm_compute; discriminate | reflexivity] |].
  split; reflexivity.
Qed.

(** C10: [User.help_labels] and [HelpRequest.help_labels] agree whenever
    the two instances carry the same [help_with]. *)
Theorem help_labels_same_function (u : User.t) (r : HelpRequest.t) :
  User.help_with u = HelpRequest.help_with r ->
  User.help_labels u = HelpRequest.help_labels r.
Proof.
  intros Heq. unfold User.help_labels, HelpRequest.help_labels.
  now rewrite Heq.
Qed.

Lemma help_labels_same_function_witness :
  User.help_labels (User.mk "BR" "" "" "" "" (-3) "" "volunteer")
  = HelpRequest.help_labels (HelpRequest.mk None None (Some 1) None (-3) "new" 0).
Proof. apply help_labels_same_function. reflexivity. Defined.

(** ** Labels of a help request *)

Lemma HELP_OPTIONS_lookup (code : Z) :
  HelpRequest.HELP_OPTIONS !! code =
    if decide (code = 128) then Some "Route recomendation"
    else if decide (code = 64) then Some "Monitoring on traffic"
    else if decide (code = 32) then Some "Pratice cycling"
    else if decide (code = 16) then Some "Learn to ride a bike"
    else None.
Proof.
  unfold HelpRequest.HELP_OPTIONS, dict, HELP_REQUEST. cbn [fold_left fst snd].
  repeat (rewrite lookup_insert; case_decide; [subst; reflexivity |]).
  rewrite lookup_empty. repeat (case_decide; [congruence |]). reflexivity.
Qed.

(** C9: [get_help_label] returns the (non-empty) request-topic label paired
    with [help_with] when [help_with] is one of 16, 32, 64, 128, and the
    empty string for every other value; so it returns a label if and only
    if [help_with] is exactly one of the four codes. *)
Theorem get_help_label_spec (r : HelpRequest.t) :
  (HelpRequest.help_with r ∈ [16; 32; 64; 128] ->
     (HelpRequest.help_with r, HelpRequest.get_help_label r) ∈ HELP_REQUEST
     /\ HelpRequest.get_help_label r <> "")
  /\ (HelpRequest.help_with r ∉ [16; 32; 64; 128] ->
        HelpRequest.get_help_label r = "")
  /\ (HelpRequest.get_help_label r <> "" <->
        HelpRequest.help_with r ∈ [16; 32; 64; 128]).
Proof.
  unfold HelpRequest.get_help_label. rewrite HELP_OPTIONS_lookup.
  unfold HELP_REQUEST.
  repeat case_decide; cbn [default].
  all: try match goal with H : HelpRequest.help_with _ = _ |- _ =>
             rewrite H end.
  all: rewrite ?elem_of_cons, ?elem_of_nil.
  all: repeat split; intros; try congruence; try tauto.
  all: try (intuition (congruence || lia)).
  all: unfold id; discriminate.
Qed.

Lemma get_help_label_spec_witness :
  HelpRequest.get_help_label
    (HelpRequest.mk None None (Some 1) None 48 "new" 0) = "".
Proof.
  apply get_help_label_spec. cbn [HelpRequest.help_with].
  rewrite !elem_of_cons, elem_of_nil. lia.
Defined.

(** ** Status filters *)

Lemma elem_of_status__in values (qs : HelpStatusQuerySet.t) r :
  r ∈ List.filter (HelpStatusQuerySet.status__in values) qs
  <-> r ∈ qs /\ HelpRequest.status r ∈ values.
Proof.
  rewrite (list_elem_of_In _ r), filter_In, <- (list_elem_of_In qs r).
  unfold HelpStatusQuerySet.status__in.
  now rewrite bool_decide_eq_true.
Qed.

(** C2: [active()] selects exactly the requests whose status is [new] or
    [assigned], [closed()] exactly those whose status is [canceled] or
    [attended]; no request is in both, and a request whose status is the
    declared [finished] is in neither. *)
Theorem active_closed_spec (qs : HelpStatusQuerySet.t) (r : HelpRequest.t) :
  (r ∈ HelpStatusQuerySet.active qs <->
     r ∈ qs /\ (HelpRequest.status r = "new"
                \/ HelpRequest.status r = "assigned"))
  /\ (r ∈ HelpStatusQuerySet.closed qs <->
        r ∈ qs /\ (HelpRequest.status r = "canceled"
                   \/ HelpRequest.status r = "attended"))
  /\ ~ (r ∈ HelpStatusQuerySet.active qs /\ r ∈ HelpStatusQuerySet.closed qs)
  /\ (("finished" ∈ map fst HelpRequest.STATUS)
      /\ (HelpRequest.status r = "finished" ->
            (r ∉ HelpStatusQuerySet.active qs)
            /\ r ∉ HelpStatusQuerySet.closed qs)).
Proof.
  unfold HelpStatusQuerySet.active, HelpStatusQuerySet.closed.
  rewrite !elem_of_status__in, !elem_of_cons, !elem_of_nil.
  split; [tauto |]. split; [tauto |]. split; [| split].
  - intros [[_ Ha] [_ Hc]].
    destruct Ha as [Ha | [Ha | []]], Hc as [Hc | [Hc | []]];
      rewrite Ha in Hc; discriminate.
  - cbn. rewrite !elem_of_cons. tauto.
  - intros Hf.
    split; intros [_ [Hs | [Hs | []]]]; rewrite Hf in Hs; discriminate.
Qed.

Lemma active_closed_spec_witness :
  let r := HelpRequest.mk (Some 5) (Some 9) (Some 1) (Some 2) 16 "finished" 7 in
  let qs := [HelpRequest.init (Some 1) 3; r] in
  (r ∉ HelpStatusQuerySet.active qs) /\ r ∉ HelpStatusQuerySet.closed qs.
Proof.
  intros r qs. apply (active_closed_spec qs r). reflexivity.
Defined.

(** ** Updates since the last access *)

(** C3: [has_updates()] returns true exactly when [last_access] is strictly
    earlier than [modified_date]; it returns false when the two are the
    same instant. *)
Theorem has_updates_spec (r : HelpRequest.t) :
  (HelpRequest.has_updates r = Some true <->
     exists modified, HelpRequest.modified_date r = Some modified
                      /\ HelpRequest.last_access r < modified)
  /\ (forall modified, HelpRequest.modified_date r = Some modified ->
        HelpRequest.has_updates r
        = Some (bool_decide (HelpRequest.last_access r < modified)))
  /\ (HelpRequest.modified_date r = Some (HelpRequest.last_access r) ->
        HelpRequest.has_updates r = Some false).
Proof.
  unfold HelpRequest.has_updates.
  destruct (HelpRequest.modified_date r) as [m |]; repeat split.
  - intros [= Hlt%Z.ltb_lt]. eauto.
  - intros (m' & [= <-] & Hlt). f_equal. now apply Z.ltb_lt.
  - intros m' [= <-]. f_equal.
    destruct (Z.ltb_spec (HelpRequest.last_access r) m);
      [now rewrite bool_decide_eq_true_2 | rewrite bool_decide_eq_false_2]; lia.
  - intros [= ->]. f_equal. apply Z.ltb_irrefl.
  - discriminate.
  - intros (m' & [=] & _).
  - discriminate.
  - discriminate.
Qed.

Lemma has_updates_spec_witness :
  HelpRequest.has_updates
    (HelpRequest.pre_save true 10 (HelpRequest.init (Some 1) 10)) = Some false.
Proof. apply has_updates_spec. reflexivity. Defined.

(** C7, as stated, fails: a request created from the defaults, constructed
    at instant 100 and saved at instant 101, has never been modified since
    its creation, and [has_updates()] is already true. *)
Lemma default_request_has_updates :
  ~ (forall (requester : option Z) (created stamped : Z),
       created <= stamped ->
       HelpRequest.has_updates
         (HelpRequest.pre_save true stamped
            (HelpRequest.init requester created)) = Some false).
Proof.
  intros Hclaim. specialize (Hclaim (Some 1) 100 101).
  cbn in Hclaim. discriminate Hclaim. lia.
Qed.

(** C7, as amended: a request created from the defaults has status [new]
    and no volunteer; whatever the collection holding it, [active()]
    includes it and [closed()] does not; [has_updates()] on it is true
    exactly when the creating save was stamped after the instant the
    instance was constructed (where [last_access] took its default), so it
    is false right after creation only when the two instants coincide or
    the stamp is earlier; and for every later state of the record with the
    same [last_access], it is false exactly while [modified_date] is not
    after [last_access]. *)
Theorem default_request_spec (requester : option Z) (created stamped : Z) :
  let r := HelpRequest.pre_save true stamped
             (HelpRequest.init requester created) in
  HelpRequest.status r = "new"
  /\ HelpRequest.volunteer r = None
  /\ (forall qs : HelpStatusQuerySet.t, r ∈ qs ->
        r ∈ HelpStatusQuerySet.active qs /\ r ∉ HelpStatusQuerySet.closed qs)
  /\ HelpRequest.last_access r = created
  /\ HelpRequest.modified_date r = Some stamped
  /\ (HelpRequest.has_updates r = Some true <-> created < stamped)
  /\ (HelpRequest.has_updates r = Some false <-> stamped <= created)
  /\ (forall (r' : HelpRequest.t) (modified : Z),
        HelpRequest.last_access r' = HelpRequest.last_access r ->
        HelpRequest.modified_date r' = Some modified ->
        (HelpRequest.has_updates r' = Some false <-> modified <= created)
        /\ (HelpRequest.has_updates r' = Some true <-> created < modified)).
Proof.
  intros r. split; [reflexivity |]. split; [reflexivity |].
  split; [| split; [reflexivity |]; split; [reflexivity |]; split; [| split]].
  - intros qs Hin.
    unfold HelpStatusQuerySet.active, HelpStatusQuerySet.closed.
    rewrite !elem_of_status__in. split.
    + split; [assumption |]. cbn. rewrite !elem_of_cons. tauto.
    + intros [_ Hc]. cbn in Hc. rewrite !elem_of_cons, elem_of_nil in Hc.
      destruct Hc as [Hc | [Hc | []]]; discriminate.
  - unfold HelpRequest.has_updates. cbn.
    destruct (Z.ltb_spec created stamped); split; intros;
      first [lia | congruence].
  - unfold HelpRequest.has_updates. cbn.
    destruct (Z.ltb_spec created stamped); split; intros;
      first [lia | congruence].
  - intros r' modified Haccess Hmodified.
    unfold HelpRequest.has_updates. rewrite Hmodified, Haccess. cbn.
    destruct (Z.ltb_spec created modified); repeat split; intros;
      first [lia | congruence].
Qed.

Lemma default_request_spec_witness :
  let r := HelpRequest.pre_save true 101 (HelpRequest.init (Some 1) 100) in
  r ∈ HelpStatusQuerySet.active [r]
  /\ (r ∉ HelpStatusQuerySet.closed [r])
  /\ HelpRequest.has_updates r = Some true
  /\ (HelpRequest.has_updates
        (HelpRequest.mk (Some 101) (Some 100) (Some 1) (Some 2) 16
           "assigned" 100) = Some false).
Proof.
  intros r.
  destruct (default_request_spec (Some 1) 100 101)
    as (_ & _ & Hqs & _ & _ & Htrue & _ & Hlater).
  destruct (Hqs [r]) as [Hactive Hclosed]; [apply list_elem_of_here |].
  split; [exact Hactive |]. split; [exact Hclosed |].
  split; [apply Htrue; lia |].
  apply (Hlater _ 100); [reflexivity | reflexivity | lia].
Defined.

(** ** Serialization *)

Lemma truthy_true (n : Z) : truthy n = true <-> n <> 0.
Proof.
  unfold truthy. rewrite negb_true_iff. apply Z.eqb_neq.
Qed.

Lemma id_truthy_spec (id : option Z) :
  id_truthy id = true <-> exists n, id = Some n /\ n <> 0.
Proof.
  destruct id as [n |]; cbn [id_truthy].
  - rewrite truthy_true. split; [eauto |]. now intros (m & [= <-] & Hm).
  - split; [discriminate |]. now intros (m & [=] & _).
Qed.

Lemma setitem2_lookup_ne outer key v d k :
  outer <> k -> setitem2 outer key v d !! k = d !! k.
Proof. intros Hne. unfold setitem2. now rewrite lookup_alter_ne. Qed.

Lemma setitem2_properties key v d p :
  d !! "properties" = Some (VDict p) ->
  properties (setitem2 "properties" key v d) = <[key := v]> p.
Proof.
  intros Hp. unfold properties, setitem2.
  rewrite lookup_alter_eq, Hp. reflexivity.
Qed.

Lemma setitem2_dom outer key v d : dom (setitem2 outer key v d) = dom d.
Proof. unfold setitem2. apply dom_alter_L. Qed.

(** C4: [Point.json()] labels the geometry [LineString], gives
    [coordinates] as the flat pair of the stored coordinate, whose two items
    are the numbers themselves, and carries the address in [properties];
    for the coordinate (-46.6, -23.5) the pair is (-46.6, -23.5). *)
Theorem Point_json_spec (p : Point.t) :
  Point.json p !! "type" = Some (VStr "LineString")
  /\ Point.json p !! "coordinates"
     = Some (VTuple [VFloat (Point.coords p).1; VFloat (Point.coords p).2])
  /\ (exists props, Point.json p !! "properties" = Some (VDict props)
                    /\ props !! "address" = Some (VStr (Point.address p)))
  /\ (Point.coords p = (S754_finite true 6558366957358285 (-47),
                        S754_finite true 6614661952700416 (-48)) ->
      Point.json p !! "coordinates"
      = Some (VTuple [VFloat (S754_finite true 6558366957358285 (-47));
                      VFloat (S754_finite true 6614661952700416 (-48))])).
Proof.
  assert (Hcoords : Point.json p !! "coordinates"
                    = Some (coord_value (Point.coords p))).
  { unfold Point.json.
    destruct (Point.id p) as [n |]; [destruct (truthy n) |];
      rewrite ?setitem2_lookup_ne by discriminate;
      now simplify_map_eq. }
  split; [| split; [exact Hcoords | split]].
  - unfold Point.json.
    destruct (Point.id p) as [n |]; [destruct (truthy n) |];
      rewrite ?setitem2_lookup_ne by discriminate;
      now simplify_map_eq.
  - unfold Point.json.
    destruct (Point.id p) as [n |]; [destruct (truthy n) |].
    + eexists. unfold setitem2. rewrite lookup_alter_eq, lookup_insert_eq.
      split; [reflexivity |]. now simplify_map_eq.
    + eexists. rewrite lookup_insert_eq. split; [reflexivity |].
      now simplify_map_eq.
    + eexists. rewrite lookup_insert_eq. split; [reflexivity |].
      now simplify_map_eq.
  - intros Hp. rewrite Hcoords, Hp. reflexivity.
Qed.

Lemma Point_json_spec_witness :
  Point.json
    (Point.mk (Some 3) 1 "Av. Paulista, 1000"
       (S754_finite true 6558366957358285 (-47),
        S754_finite true 6614661952700416 (-48)))
    !! "coordinates"
  = Some (VTuple [VFloat (S754_finite true 6558366957358285 (-47));
                  VFloat (S754_finite true 6614661952700416 (-48))]).
Proof. apply Point_json_spec. reflexivity. Defined.

Lemma Track_json_base (t : Track.t) :
  exists props,
    Track.json t !! "properties" = Some (VDict props)
    /\ props = (if id_truthy (Track.id t)
                then from_option (fun n => <["id" := VInt n]>) id (Track.id t)
                else id)
                 (<["end" := VStr (Track.end_ t)]>
                    (<["start" := VStr (Track.start t)]> ∅)).
Proof.
  unfold Track.json, id_truthy.
  destruct (Track.id t) as [n |]; [destruct (truthy n) |]; eexists.
  - unfold setitem2. rewrite lookup_alter_eq, lookup_insert_eq.
    split; reflexivity.
  - rewrite lookup_insert_eq. split; reflexivity.
  - rewrite lookup_insert_eq. split; reflexivity.
Qed.

(** C5, as amended: [Track.json()] has exactly the keys [type],
    [coordinates] and [properties]; [properties] holds [start] and [end];
    and [properties] holds [id] if and only if the instance's id is set and
    is not 0, in which case it is that id.  An instance without id omits
    it, an instance with id 7 has [id] 7. *)
Theorem Track_json_spec (t : Track.t) :
  dom (Track.json t) = {[ "type"; "coordinates"; "properties" ]}
  /\ Track.json t !! "type" = Some (VStr "LineString")
  /\ Track.json t !! "coordinates"
     = Some (VList (map coord_value (Track.track t)))
  /\ exists props,
       Track.json t !! "properties" = Some (VDict props)
       /\ props !! "start" = Some (VStr (Track.start t))
       /\ props !! "end" = Some (VStr (Track.end_ t))
       /\ (forall v, props !! "id" = Some v <->
                     exists n, Track.id t = Some n /\ n <> 0 /\ v = VInt n)
       /\ (Track.id t = None -> props !! "id" = None)
       /\ (Track.id t = Some 7 -> props !! "id" = Some (VInt 7)).
Proof.
  split; [| split; [| split]].
  - unfold Track.json.
    destruct (Track.id t) as [n |]; [destruct (truthy n) |];
      rewrite ?setitem2_dom, !dom_insert_L, dom_empty_L; set_solver.
  - unfold Track.json.
    destruct (Track.id t) as [n |]; [destruct (truthy n) |];
      rewrite ?setitem2_lookup_ne by discriminate; now simplify_map_eq.
  - unfold Track.json.
    destruct (Track.id t) as [n |]; [destruct (truthy n) |];
      rewrite ?setitem2_lookup_ne by discriminate; now simplify_map_eq.
  - destruct (Track_json_base t) as (props & Hprops & Heq).
    exists props. split; [exact Hprops |]. clear Hprops. subst props.
    unfold id_truthy.
    destruct (Track.id t) as [n |]; [destruct (truthy n) eqn:Hn |];
      cbn [from_option id].
    + apply truthy_true in Hn.
      repeat split; try (now simplify_map_eq).
      * rewrite lookup_insert_eq. intros [= <-]. eauto.
      * intros (m & [= <-] & _ & ->). now rewrite lookup_insert_eq.
      * intros [= ->]. now rewrite lookup_insert_eq.
    + assert (n = 0) as ->.
      { destruct (Z.eq_dec n 0) as [| Hne]; [assumption |].
        apply truthy_true in Hne. congruence. }
      repeat split; try (now simplify_map_eq).
      intros (m & [= <-] & Hm & _). now destruct Hm.
    + repeat split; try (now simplify_map_eq).
      intros (m & [=] & _).
Qed.

Lemma Track_json_spec_witness :
  exists props,
    Track.json (Track.mk (Some 7) 1 "Home" "Work" []) !! "properties"
    = Some (VDict props)
    /\ props !! "id" = Some (VInt 7).
Proof.
  destruct (Track_json_spec (Track.mk (Some 7) 1 "Home" "Work" []))
    as (_ & _ & _ & props & Hprops & _ & _ & _ & _ & Hseven).
  exists props. split; [exact Hprops | apply Hseven; reflexivity].
Defined.

(** C5, as stated, fails: an instance whose id is 0 has an id, and
    [properties] holds no [id]. *)
Lemma Track_json_id_zero :
  ~ (forall t : Track.t,
       is_Some (properties (Track.json t) !! "id") <-> is_Some (Track.id t)).
Proof.
  intros Hclaim.
  destruct (Hclaim (Track.mk (Some 0) 1 "Home" "Work" [])) as [_ Hin].
  destruct Hin as [v Hv]; [now eexists |].
  vm_compute in Hv. discriminate.
Qed.

(** * Further properties *)

(** ** Decoding, for every mask *)

(** X1: for every mask that is not negative, both [help_labels] generators
    yield nothing. *)
Theorem help_labels_nonneg_empty (u : User.t) (r : HelpRequest.t) :
  (0 <= User.help_with u -> User.help_labels u = [])
  /\ (0 <= HelpRequest.help_with r -> HelpRequest.help_labels r = []).
Proof.
  split; intros Hnn; now apply help_labels_loop_nonneg.
Qed.

Lemma help_labels_nonneg_empty_witness :
  User.help_labels (User.mk "" "" "" "" "" 255 "" "volunteer") = []
  /\ HelpRequest.help_labels
       (HelpRequest.mk None None (Some 1) None 48 "new" 0) = [].
Proof.
  destruct (help_labels_nonneg_empty
              (User.mk "" "" "" "" "" 255 "" "volunteer")
              (HelpRequest.mk None None (Some 1) None 48 "new" 0))
    as [Hu Hr].
  split; [apply Hu | apply Hr]; cbn; lia.
Defined.

Lemma land_pow2_truthy (mask k : Z) :
  0 <= k -> truthy (Z.land mask (2 ^ k)) = Z.testbit mask k.
Proof.
  intros Hk. unfold truthy.
  destruct (Z.testbit mask k) eqn:Hbit.
  - apply negb_true_iff, Z.eqb_neq. intros Hz.
    apply (f_equal (fun z => Z.testbit z k)) in Hz.
    rewrite Z.land_spec, Hbit, Z.pow2_bits_true, Z.bits_0 in Hz by exact Hk.
    discriminate.
  - apply negb_false_iff, Z.eqb_eq. apply Z.bits_inj'. intros i Hi.
    rewrite Z.land_spec, Z.bits_0.
    destruct (Z.eq_dec k i) as [<- | Hne].
    + now rewrite Hbit.
    + rewrite (Z.pow2_bits_false k i) by exact Hne. apply andb_false_r.
Qed.

Lemma vocabulary_label_code (vocabulary : list (Z * string)) code code' label :
  NoDup (map snd vocabulary) ->
  In (code, label) vocabulary -> In (code', label) vocabulary ->
  code = code'.
Proof.
  induction vocabulary as [| [c l] rest IH]; [intros _ [] |].
  cbn [map snd]. rewrite NoDup_cons. intros [Hnew Hrest] [H1 | H1] [H2 | H2].
  - congruence.
  - injection H1 as -> ->. exfalso. apply Hnew.
    apply list_elem_of_In, in_map_iff. now exists (code', label).
  - injection H2 as -> ->. exfalso. apply Hnew.
    apply list_elem_of_In, in_map_iff. now exists (code, label).
  - now apply IH.
Qed.

Lemma HELP_labels_NoDup : NoDup (map snd HELP).
Proof.
  cbn. repeat (apply NoDup_cons; split;
               [rewrite ?elem_of_cons, elem_of_nil;
                intros H; repeat (destruct H as [H | H]; [discriminate |]);
                exact H |]).
  apply NoDup_nil_2.
Qed.

Lemma HELP_below_negative (mask : Z) :
  mask < 0 -> Forall (fun cl => mask < fst cl) HELP.
Proof.
  intros Hneg. unfold HELP, HELP_OFFER, HELP_REQUEST. cbn [app].
  repeat (constructor; [cbn; lia |]). constructor.
Qed.

(** X2: for a negative mask the loop never breaks: both generators yield,
    in vocabulary order, the label of every code whose bit is set in the
    two's complement mask, so the label of code [2^k] is yielded exactly
    when bit [k] of the mask is set. *)
Theorem help_labels_negative (u : User.t) (r : HelpRequest.t) :
  (User.help_with u < 0 ->
     User.help_labels u
     = map snd (List.filter
                  (fun cl => truthy (Z.land (User.help_with u) (fst cl)))
                  HELP)
     /\ (forall k label, 0 <= k -> In (2 ^ k, label) HELP ->
           (In label (User.help_labels u)
            <-> Z.testbit (User.help_with u) k = true)))
  /\ (HelpRequest.help_with r < 0 ->
       HelpRequest.help_labels r
       = map snd (List.filter
                    (fun cl => truthy (Z.land (HelpRequest.help_with r)
                                              (fst cl)))
                    HELP)).
Proof.
  split.
  - intros Hneg. unfold User.help_labels.
    rewrite (help_labels_loop_below _ _ (HELP_below_negative _ Hneg)).
    split; [reflexivity |].
    intros k label Hk Hin. unfold set_bit_labels.
    rewrite <- (land_pow2_truthy _ _ Hk), in_map_iff. split.
    + intros ([code label'] & Hlabel & [Hin' Hbit]%filter_In).
      cbn in Hlabel, Hbit. subst label'.
      now rewrite (vocabulary_label_code HELP (2 ^ k) code label
                     HELP_labels_NoDup Hin Hin').
    + intros Hbit. exists (2 ^ k, label). split; [reflexivity |].
      apply filter_In. now split.
  - intros Hneg. unfold HelpRequest.help_labels.
    now rewrite (help_labels_loop_below _ _ (HELP_below_negative _ Hneg)).
Qed.

Lemma help_labels_negative_witness :
  User.help_labels (User.mk "" "" "" "" "" (-1) "" "") = map snd HELP
  /\ HelpRequest.help_labels
       (HelpRequest.mk None None (Some 1) None (-256 + 16) "new" 0)
     = ["Learn to ride a bike"].
Proof.
  destruct (help_labels_negative
              (User.mk "" "" "" "" "" (-1) "" "")
              (HelpRequest.mk None None (Some 1) None (-256 + 16) "new" 0))
    as [Hu Hr].
  split.
  - destruct Hu as [Hu _]; [cbn; lia |]. rewrite Hu. reflexivity.
  - rewrite Hr; [reflexivity | cbn; lia].
Defined.

(** ** Chaining the status filters *)

Section FilterChains.

Context {A : Type}.
Implicit Types (f g : A -> bool) (l : list A).

Lemma filter_narrow f g l :
  (forall x, g x = true -> f x = true) ->
  List.filter g (List.filter f l) = List.filter g l.
Proof.
  intros Hgf. induction l as [| x l IH]; [reflexivity |]. cbn.
  destruct (f x) eqn:Hf; cbn.
  - now rewrite IH.
  - destruct (g x) eqn:Hg; [| exact IH].
    apply Hgf in Hg. congruence.
Qed.

Lemma filter_exclusive f g l :
  (forall x, f x = true -> g x = false) ->
  List.filter g (List.filter f l) = [].
Proof.
  intros Hfg. induction l as [| x l IH]; [reflexivity |]. cbn.
  destruct (f x) eqn:Hf; cbn; [| exact IH].
  now rewrite (Hfg x Hf).
Qed.

Lemma filter_length_split f g h l :
  (forall x, f x = g x || h x) ->
  (forall x, g x = true -> h x = false) ->
  length (List.filter f l)
  = (length (List.filter g l) + length (List.filter h l))%nat.
Proof.
  intros Hor Hex. induction l as [| x l IH]; [reflexivity |]. cbn.
  rewrite Hor. destruct (g x) eqn:Hg; cbn.
  - rewrite (Hex x Hg). cbn. now rewrite IH.
  - destruct (h x); cbn; rewrite IH; lia.
Qed.

End FilterChains.

Lemma status_eq_true value r :
  HelpStatusQuerySet.status_eq value r = true <-> HelpRequest.status r = value.
Proof. unfold HelpStatusQuerySet.status_eq. apply bool_decide_eq_true. Qed.

Lemma status__in_pair a b r :
  HelpStatusQuerySet.status__in [a; b] r
  = HelpStatusQuerySet.status_eq a r || HelpStatusQuerySet.status_eq b r.
Proof.
  unfold HelpStatusQuerySet.status__in, HelpStatusQuerySet.status_eq.
  destruct (bool_decide_reflect (HelpRequest.status r = a)) as [Ha | Ha];
    destruct (bool_decide_reflect (HelpRequest.status r = b)) as [Hb | Hb];
    cbn.
  1-3: apply bool_decide_eq_true; rewrite !elem_of_cons; tauto.
  apply bool_decide_eq_false. rewrite !elem_of_cons, elem_of_nil. tauto.
Qed.

Lemma status_eq_literal value r s :
  HelpRequest.status r = s ->
  HelpStatusQuerySet.status_eq value r = bool_decide (s = value).
Proof. now intros <-. Qed.

(** Decides the comparisons of two string literals in the goal. *)
Ltac decide_literals :=
  repeat match goal with
         | |- context [bool_decide (?a = ?b)] =>
             first [ rewrite (bool_decide_eq_true_2 (a = b)) by reflexivity
                   | rewrite (bool_decide_eq_false_2 (a = b)) by discriminate ]
         end.

Lemma status_eq_exclusive a b r :
  a <> b ->
  HelpStatusQuerySet.status_eq a r = true ->
  HelpStatusQuerySet.status_eq b r = false.
Proof.
  rewrite status_eq_true. intros Hne <-.
  now apply bool_decide_eq_false.
Qed.

(** X3: [active()] is made of the [new()] and the [assigned()] requests,
    [closed()] of the [canceled()] and the [attended()] ones: membership
    is the union, and the counts add up. *)
Theorem active_closed_split (qs : HelpStatusQuerySet.t) :
  (forall r, r ∈ HelpStatusQuerySet.active qs <->
             r ∈ HelpStatusQuerySet.new qs
             \/ r ∈ HelpStatusQuerySet.assigned qs)
  /\ (forall r, r ∈ HelpStatusQuerySet.closed qs <->
               r ∈ HelpStatusQuerySet.canceled qs
               \/ r ∈ HelpStatusQuerySet.attended qs)
  /\ length (HelpStatusQuerySet.active qs)
     = (length (HelpStatusQuerySet.new qs)
        + length (HelpStatusQuerySet.assigned qs))%nat
  /\ length (HelpStatusQuerySet.closed qs)
     = (length (HelpStatusQuerySet.canceled qs)
        + length (HelpStatusQuerySet.attended qs))%nat.
Proof.
  unfold HelpStatusQuerySet.active, HelpStatusQuerySet.closed,
    HelpStatusQuerySet.new, HelpStatusQuerySet.assigned,
    HelpStatusQuerySet.canceled, HelpStatusQuerySet.attended.
  assert (Hmem : forall a b r,
    r ∈ List.filter (HelpStatusQuerySet.status__in [a; b]) qs <->
    r ∈ List.filter (HelpStatusQuerySet.status_eq a) qs
    \/ r ∈ List.filter (HelpStatusQuerySet.status_eq b) qs).
  { intros a b r. rewrite !list_elem_of_In, !filter_In, status__in_pair.
    rewrite orb_true_iff. tauto. }
  split; [apply Hmem |]. split; [apply Hmem |].
  split; apply filter_length_split; intros r;
    try apply status__in_pair; now apply status_eq_exclusive.
Qed.

(** X4: chaining the filters.  [active()] and [closed()] applied twice
    select what they select once; a closed filter after [active()], or an
    active one after [closed()], selects nothing; [new()] and [assigned()]
    after [active()], and [canceled()] and [attended()] after [closed()],
    select what they select on the whole collection. *)
Theorem filter_chaining (qs : HelpStatusQuerySet.t) :
  HelpStatusQuerySet.active (HelpStatusQuerySet.active qs)
  = HelpStatusQuerySet.active qs
  /\ HelpStatusQuerySet.closed (HelpStatusQuerySet.closed qs)
     = HelpStatusQuerySet.closed qs
  /\ HelpStatusQuerySet.closed (HelpStatusQuerySet.active qs) = []
  /\ HelpStatusQuerySet.active (HelpStatusQuerySet.closed qs) = []
  /\ HelpStatusQuerySet.canceled (HelpStatusQuerySet.active qs) = []
  /\ HelpStatusQuerySet.attended (HelpStatusQuerySet.active qs) = []
  /\ HelpStatusQuerySet.new (HelpStatusQuerySet.closed qs) = []
  /\ HelpStatusQuerySet.assigned (HelpStatusQuerySet.closed qs) = []
  /\ HelpStatusQuerySet.new (HelpStatusQuerySet.active qs)
     = HelpStatusQuerySet.new qs
  /\ HelpStatusQuerySet.assigned (HelpStatusQuerySet.active qs)
     = HelpStatusQuerySet.assigned qs
  /\ HelpStatusQuerySet.canceled (HelpStatusQuerySet.closed qs)
     = HelpStatusQuerySet.canceled qs
  /\ HelpStatusQuerySet.attended (HelpStatusQuerySet.closed qs)
     = HelpStatusQuerySet.attended qs.
Proof.
  unfold HelpStatusQuerySet.active, HelpStatusQuerySet.closed,
    HelpStatusQuerySet.new, HelpStatusQuerySet.assigned,
    HelpStatusQuerySet.canceled, HelpStatusQuerySet.attended.
  repeat split.
  1-2, 9-12: apply filter_narrow; intros r; rewrite ?status__in_pair;
    intros ->; rewrite ?orb_true_r; reflexivity.
  all: apply filter_exclusive; intros r; rewrite ?status__in_pair;
    intros [Hs | Hs]%orb_true_iff; apply status_eq_true in Hs;
    rewrite ?orb_false_iff; repeat split;
    apply bool_decide_eq_false; rewrite Hs; discriminate.
Qed.

(** X5: in a collection whose statuses are all declared ones, [attended()]
    selects nothing, [closed()] selects the canceled requests only, and the
    finished requests are the ones that neither [active()] nor [closed()]
    selects. *)
Theorem declared_statuses_filters (qs : HelpStatusQuerySet.t) :
  Forall (fun r => HelpRequest.status r ∈ map fst HelpRequest.STATUS) qs ->
  HelpStatusQuerySet.attended qs = []
  /\ HelpStatusQuerySet.closed qs = HelpStatusQuerySet.canceled qs
  /\ (forall r, r ∈ qs ->
        (HelpRequest.status r = "finished" <->
           (r ∉ HelpStatusQuerySet.active qs)
           /\ (r ∉ HelpStatusQuerySet.closed qs)))
  /\ length qs
     = (length (HelpStatusQuerySet.active qs)
        + length (HelpStatusQuerySet.closed qs)
        + length (List.filter (HelpStatusQuerySet.status_eq "finished") qs))%nat.
Proof.
  intros Hdeclared.
  unfold HelpStatusQuerySet.active, HelpStatusQuerySet.closed,
    HelpStatusQuerySet.canceled, HelpStatusQuerySet.attended.
  split; [| split; [| split]].
  - induction Hdeclared as [| r qs' Hr _ IH]; [reflexivity |]. cbn.
    rewrite IH. cbn in Hr. rewrite !elem_of_cons, elem_of_nil in Hr.
    unfold HelpStatusQuerySet.status_eq.
    rewrite bool_decide_eq_false_2; [reflexivity |].
    intros Ha. rewrite Ha in Hr. intuition discriminate.
  - induction Hdeclared as [| r qs' Hr _ IH]; [reflexivity |]. cbn.
    rewrite IH, status__in_pair. cbn in Hr.
    rewrite !elem_of_cons, elem_of_nil in Hr.
    replace (HelpStatusQuerySet.status_eq "attended" r) with false;
      [now rewrite orb_false_r |].
    symmetry. apply bool_decide_eq_false.
    intros Ha. rewrite Ha in Hr. intuition discriminate.
  - intros r Hin. rewrite !elem_of_status__in, !elem_of_cons, !elem_of_nil.
    rewrite Forall_forall in Hdeclared.
    specialize (Hdeclared r Hin).
    cbn in Hdeclared. rewrite !elem_of_cons, elem_of_nil in Hdeclared.
    split.
    + intros Hf. rewrite Hf. split; intros [_ Hs]; intuition discriminate.
    + intros [Ha Hc].
      destruct Hdeclared as [Hs | [Hs | [Hs | [Hs | []]]]];
        [exfalso; apply Ha | exfalso; apply Ha | exfalso; apply Hc
         | exact Hs]; tauto.
  - induction Hdeclared as [| r qs' Hr _ IH]; [reflexivity |].
    cbn in Hr. rewrite !elem_of_cons, elem_of_nil in Hr.
    cbn [List.filter]. rewrite !status__in_pair.
    rewrite !(status_eq_literal _ _ (HelpRequest.status r) eq_refl).
    destruct Hr as [Hs | [Hs | [Hs | [Hs | []]]]]; rewrite Hs;
      decide_literals; cbn; rewrite IH; lia.
Qed.

Lemma declared_statuses_filters_witness :
  let qs := [ HelpRequest.init (Some 1) 0;
              HelpRequest.mk (Some 1) (Some 4) (Some 1) (Some 2) 16
                "finished" 2;
              HelpRequest.mk (Some 1) (Some 3) (Some 3) None 32
                "canceled" 1 ] in
  HelpStatusQuerySet.attended qs = []
  /\ HelpStatusQuerySet.closed qs = HelpStatusQuerySet.canceled qs.
Proof.
  intros qs. destruct (declared_statuses_filters qs) as (Ha & Hc & _).
  - repeat constructor; cbn; rewrite !elem_of_cons; tauto.
  - split; [exact Ha | exact Hc].
Defined.

(** ** Instances that were never written *)

(** X7: [has_updates()] raises exactly when [modified_date] is unset, as it
    is on an instance that was constructed and never written; in every
    other case it returns a boolean. *)
Theorem has_updates_unwritten (r : HelpRequest.t) (requester : option Z)
    (created : Z) :
  (HelpRequest.has_updates r = None <-> HelpRequest.modified_date r = None)
  /\ (is_Some (HelpRequest.has_updates r)
      <-> is_Some (HelpRequest.modified_date r))
  /\ HelpRequest.has_updates (HelpRequest.init requester created) = None.
Proof.
  unfold HelpRequest.has_updates.
  destruct (HelpRequest.modified_date r) as [m |]; repeat split;
    try discriminate; eauto; intros [x [=]].
Qed.

(** ** The avatar of a user *)



(** ** What the serializations keep *)

(** The [properties] dict with the id added when it is let through. *)
Lemma Track_json_form (t : Track.t) :
  Track.json t
  = <["properties" :=
        VDict (from_option (fun n => <["id" := VInt n]>) id
                 (serialized_id (Track.id t))
                 (<["end" := VStr (Track.end_ t)]>
                    (<["start" := VStr (Track.start t)]> ∅)))]>
      (<["coordinates" := VList (map coord_value (Track.track t))]>
         (<["type" := VStr "LineString"]> ∅)).
Proof.
  unfold Track.json, serialized_id, setitem2.
  destruct (Track.id t) as [n |]; [destruct (truthy n) |];
    first [reflexivity | now rewrite alter_insert_eq].
Qed.

Lemma Point_json_form (p : Point.t) :
  Point.json p
  = <["properties" :=
        VDict (from_option (fun n => <["id" := VInt n]>) id
                 (serialized_id (Point.id p))
                 (<["address" := VStr (Point.address p)]> ∅))]>
      (<["coordinates" := coord_value (Point.coords p)]>
         (<["type" := VStr "LineString"]> ∅)).
Proof.
  unfold Point.json, serialized_id, setitem2.
  destruct (Point.id p) as [n |]; [destruct (truthy n) |];
    first [reflexivity | now rewrite alter_insert_eq].
Qed.

Lemma with_id_lookup_id (sid : option Z) (base : gmap string value) :
  base !! "id" = None ->
  from_option (fun n => <["id" := VInt n]>) id sid base !! "id"
  = VInt <$> sid.
Proof.
  intros Hbase. destruct sid as [n |]; cbn; [apply lookup_insert_eq | exact Hbase].
Qed.

Lemma with_id_lookup_ne (sid : option Z) (base : gmap string value) k :
  k <> "id" ->
  from_option (fun n => <["id" := VInt n]>) id sid base !! k = base !! k.
Proof.
  intros Hk. destruct sid as [n |]; cbn; [| reflexivity].
  now rewrite lookup_insert_ne.
Qed.

Lemma serialized_id_Some (id : option Z) n :
  serialized_id id = Some n <-> id = Some n /\ n <> 0.
Proof.
  unfold serialized_id. destruct id as [m |].
  - destruct (truthy m) eqn:Hm.
    + apply truthy_true in Hm. split; [intros [= <-]; auto | now intros [-> _]].
    + split; [discriminate |]. intros [[= <-] Hn%truthy_true]. congruence.
  - split; [discriminate | now intros [[=] _]].
Qed.

Lemma map_coord_value_inj (l1 l2 : list (spec_float * spec_float)) :
  map coord_value l1 = map coord_value l2 -> l1 = l2.
Proof.
  revert l2. induction l1 as [| [x1 y1] l1 IH]; intros [| [x2 y2] l2];
    cbn; try discriminate; [reflexivity |].
  intros [= -> -> Hrest]. f_equal. now apply IH.
Qed.

(** X9: [Point.json()] has exactly the keys [type], [coordinates] and
    [properties]; [properties] has [address], and [id] if and only if the
    instance's id is set and is not 0, in which case it is that id, and no
    other key. *)
Theorem Point_json_keys (p : Point.t) :
  dom (Point.json p) = {[ "type"; "coordinates"; "properties" ]}
  /\ (forall k, k ∈ dom (properties (Point.json p)) ->
               k = "address" \/ k = "id")
  /\ properties (Point.json p) !! "address" = Some (VStr (Point.address p))
  /\ (forall v, properties (Point.json p) !! "id" = Some v <->
                exists n, Point.id p = Some n /\ n <> 0 /\ v = VInt n).
Proof.
  rewrite Point_json_form. unfold properties. rewrite lookup_insert_eq.
  split; [| split; [| split]].
  - rewrite !dom_insert_L, dom_empty_L. set_solver.
  - intros k. destruct (serialized_id (Point.id p)); cbn;
      rewrite !dom_insert_L, dom_empty_L, ?elem_of_union, !elem_of_singleton,
        elem_of_empty; tauto.
  - now rewrite with_id_lookup_ne by discriminate.
  - intros v. rewrite with_id_lookup_id by reflexivity. split.
    + destruct (serialized_id (Point.id p)) as [n |] eqn:Hid; [| discriminate].
      intros [= <-]. apply serialized_id_Some in Hid as [Hid Hn]. eauto.
    + intros (n & Hid & Hn & ->).
      now rewrite (proj2 (serialized_id_Some _ _) (conj Hid Hn)).
Qed.

(** X10: two tracks serialize alike exactly when they have the same
    [start], [end] and [track] and their ids are let through alike (both
    dropped, or the same id): [json()] keeps these and nothing of the
    owner. *)
Theorem Track_json_injective (t1 t2 : Track.t) :
  Track.json t1 = Track.json t2 <->
  Track.start t1 = Track.start t2
  /\ Track.end_ t1 = Track.end_ t2
  /\ Track.track t1 = Track.track t2
  /\ serialized_id (Track.id t1) = serialized_id (Track.id t2).
Proof.
  rewrite !Track_json_form. split.
  - intros Heq.
    pose proof (f_equal (fun d => d !! "coordinates") Heq) as Hc.
    pose proof (f_equal (fun d => d !! "properties") Heq) as Hp.
    cbn beta in Hc, Hp.
    rewrite !lookup_insert_eq in Hp.
    rewrite !(lookup_insert_ne _ "properties" "coordinates") in Hc
      by discriminate.
    rewrite !lookup_insert_eq in Hc.
    injection Hc as Hc. injection Hp as Hp.
    pose proof (f_equal (fun d => d !! "start") Hp) as Hs.
    pose proof (f_equal (fun d => d !! "end") Hp) as He.
    pose proof (f_equal (fun d => d !! "id") Hp) as Hi.
    cbn beta in Hs, He, Hi.
    rewrite !with_id_lookup_ne in Hs, He by discriminate.
    rewrite !with_id_lookup_id in Hi by reflexivity.
    rewrite !(lookup_insert_ne _ "end" "start") in Hs by discriminate.
    rewrite !lookup_insert_eq in Hs, He.
    injection Hs as Hs. injection He as He.
    repeat split; try assumption.
    + now apply map_coord_value_inj.
    + destruct (serialized_id (Track.id t1)), (serialized_id (Track.id t2));
        cbn in Hi; congruence.
  - now intros (-> & -> & -> & ->).
Qed.

(** X11: two points serialize alike exactly when they have the same
    [address] and [coords] and their ids are let through alike. *)
Theorem Point_json_injective (p1 p2 : Point.t) :
  Point.json p1 = Point.json p2 <->
  Point.address p1 = Point.address p2
  /\ Point.coords p1 = Point.coords p2
  /\ serialized_id (Point.id p1) = serialized_id (Point.id p2).
Proof.
  rewrite !Point_json_form. split.
  - intros Heq.
    pose proof (f_equal (fun d => d !! "coordinates") Heq) as Hc.
    pose proof (f_equal (fun d => d !! "properties") Heq) as Hp.
    cbn beta in Hc, Hp.
    rewrite !lookup_insert_eq in Hp.
    rewrite !(lookup_insert_ne _ "properties" "coordinates") in Hc
      by discriminate.
    rewrite !lookup_insert_eq in Hc.
    injection Hc as Hx Hy. injection Hp as Hp.
    pose proof (f_equal (fun d => d !! "address") Hp) as Ha.
    pose proof (f_equal (fun d => d !! "id") Hp) as Hi.
    cbn beta in Ha, Hi.
    rewrite !with_id_lookup_ne in Ha by discriminate.
    rewrite !with_id_lookup_id in Hi by reflexivity.
    rewrite !lookup_insert_eq in Ha. injection Ha as Ha.
    repeat split; try assumption.
    + destruct (Point.coords p1), (Point.coords p2). cbn in Hx, Hy. congruence.
    + destruct (serialized_id (Point.id p1)), (serialized_id (Point.id p2));
        cbn in Hi; congruence.
  - now intros (-> & -> & ->).
Qed.

(** ** Choices and field lengths *)

(** X12: every key of a declared choice list fits the [max_length] of the
    field that declares it (32 for [ride_experience], [bike_use] and
    [role], 16 for [status] and [intention]), no list has two entries with
    the same key, and the declared defaults [new] and [answer] are keys of
    their lists. *)
Theorem choices_fit_fields :
  Forall (fun key => (String.length key <= 32)%nat) (map fst EXPERIENCE)
  /\ Forall (fun key => (String.length key <= 32)%nat) (map fst BIKE_USE)
  /\ Forall (fun key => (String.length key <= 32)%nat) (map fst CYCLIST_ROLES)
  /\ Forall (fun key => (String.length key <= 16)%nat)
            (map fst HelpRequest.STATUS)
  /\ Forall (fun key => (String.length key <= 16)%nat) (map fst INTENTION)
  /\ NoDup (map fst EXPERIENCE)
  /\ NoDup (map fst BIKE_USE)
  /\ NoDup (map fst CYCLIST_ROLES)
  /\ NoDup (map fst HelpRequest.STATUS)
  /\ NoDup (map fst INTENTION)
  /\ HelpRequest.status (HelpRequest.init None 0) ∈ map fst HelpRequest.STATUS
  /\ "answer" ∈ map fst INTENTION.
Proof.
  repeat split.
  1-5: cbn; repeat (constructor; [cbn; lia |]); constructor.
  1-5: apply (bool_decide_unpack _); vm_compute; reflexivity.
  - cbn. apply list_elem_of_here.
  - cbn. apply list_elem_of_here.
Qed.
